(** * Predictive engine: feature pipeline, predictor and action engine

    A shallow embedding of [models/predictive_engine.py] (class
    [PredictiveEngine]) and the properties of its data-preparation
    pipeline, predictor and action triggers.

    Modelling conventions.
    - A pandas DataFrame is a list of row records, in row order; each
      pipeline stage that adds columns has its own row record that wraps
      the previous one.
    - A calendar date is the number of days since 1970-01-01 (a [Z]); a
      timestamp is a date and a second within the day.
    - Quantities, stock levels and predictions are binary64 numbers, as
      in Python and numpy: Rocq's primitive [float], whose operations
      round, overflow and treat NaN as IEEE 754 says.
    - A pandas operation that raises on what the code hands to it
      raises in the model: [Series.rolling] on a Series for [on], and
      [merge_asof] on keys of [datetime.date] objects.
    - The Odoo environment [self.env] is a record of the tables that the
      code reads; the records that the code creates or updates are a
      trace of write actions.
    - Python exceptions are values of [exn]; a method that can raise
      returns a [result].  The text that the main method returns is a
      [message]: the text of completion, or the exception whose text
      follows ['Error: ']. *)

From Stdlib Require Import ZArith Lia Floats.
From stdpp Require Import base numbers list sorting gmap strings.

Set Warnings "-inexact-float".

Local Open Scope Z_scope.

(** ** Calendar *)

Module Calendar.

Definition date := Z.

Record datetime := { dt_date : date; dt_second : Z }.

Definition is_leap (y : Z) : bool :=
  ((y mod 4 =? 0) && negb (y mod 100 =? 0)) || (y mod 400 =? 0).

Definition days_in_month (y m : Z) : Z :=
  if m =? 2 then (if is_leap y then 29 else 28)
  else if (m =? 4) || (m =? 6) || (m =? 9) || (m =? 11) then 30
  else 31.

(** Day number of the civil date [y]-[m]-[d]. *)
Definition days_from_civil (y m d : Z) : date :=
  let y' := if m <=? 2 then y - 1 else y in
  let era := y' / 400 in
  let yoe := y' - era * 400 in
  let mp := (m + 9) mod 12 in
  let doy := (153 * mp + 2) / 5 + d - 1 in
  let doe := yoe * 365 + yoe / 4 - yoe / 100 + doy in
  era * 146097 + doe - 719468.

(** Year, month and day of a day number. *)
Definition civil_from_days (z : date) : Z * Z * Z :=
  let z' := z + 719468 in
  let era := z' / 146097 in
  let doe := z' - era * 146097 in
  let yoe := (doe - doe / 1460 + doe / 36524 - doe / 146096) / 365 in
  let doy := doe - (365 * yoe + yoe / 4 - yoe / 100) in
  let mp := (5 * doy + 2) / 153 in
  let d := doy - (153 * mp + 2) / 5 + 1 in
  let m := if mp <? 10 then mp + 3 else mp - 9 in
  let y := yoe + era * 400 in
  (if m <=? 2 then y + 1 else y, m, d).

Definition year (z : date) : Z := (civil_from_days z).1.1.
Definition month (z : date) : Z := (civil_from_days z).1.2.
Definition day (z : date) : Z := (civil_from_days z).2.

(** [Series.dt.dayofweek]: Monday is 0; 1970-01-01 was a Thursday. *)
Definition dayofweek (z : date) : Z := (z + 3) mod 7.

(** [Series.dt.is_month_end]. *)
Definition is_month_end (z : date) : bool :=
  day z =? days_in_month (year z) (month z).

(** [ts - pd.DateOffset(years=n)]: same month and day [n] years
    earlier, the day clipped to the length of that month. *)
Definition minus_years (n : Z) (t : datetime) : datetime :=
  let '(y, m, d) := civil_from_days (dt_date t) in
  {| dt_date := days_from_civil (y - n) m (Z.min d (days_in_month (y - n) m));
     dt_second := dt_second t |}.

End Calendar.
Import Calendar.

(** ** Exceptions *)

(** The exceptions that the engine runs into.  A [KeyError] has its
    argument: the label, for a selection by one label, and the text
    that pandas makes of the missing labels, for a selection by a list
    of labels. *)
Inductive exn : Type :=
  | KeyError (arg : string)
  | IndexError
  | ValueError
  | MergeError.

Inductive result (A : Type) : Type :=
  | Ok (a : A)
  | Raise (e : exn).
Arguments Ok {A} a.
Arguments Raise {A} e.

Global Instance result_ret : MRet result := λ A a, Ok a.
Global Instance result_bind : MBind result := λ A B k r,
  match r with
  | Ok a => k a
  | Raise e => Raise e
  end.

(** ** The tables of the Odoo environment *)

(** [sale.order], with the fields that the engine reads. *)
Record SaleOrder := {
  so_id : Z;
  so_state : string;
  so_date_order : Calendar.datetime;
  so_product_id : option Z;
  so_product_uom_qty : option float;
  so_price_unit : float
}.

(** [stock.move]. *)
Record StockMove := {
  sm_product_id : option Z;
  sm_date : Calendar.datetime;
  sm_quantity_done : float
}.

(** [stock.quant]: an inventory level of a product at a point in time. *)
Record StockQuant := {
  sq_id : Z;
  sq_product_id : Z;
  sq_quantity : float;
  sq_date : Calendar.datetime
}.

(** [product.product]. *)
Record Product := {
  id : Z;
  qty_available : float
}.

(** [self.env], and the clock that [pd.to_datetime('today')] and
    [pd.Timestamp.today()] read. *)
Record Env := {
  sale_order : list SaleOrder;
  stock_move : list StockMove;
  stock_quant : list StockQuant;
  product_product : list Product;
  stock_warehouse : list Z;
  tag_sales_opportunity : option Z;
  today : Calendar.datetime
}.

(** ** Rows of the data frames *)

(** A row of [raw_data['sales']]. *)
Record SaleRow := {
  date_order : Calendar.datetime;
  raw_product_id : option Z;
  raw_product_uom_qty : option float;
  price_unit : float
}.

(** A row of [raw_data['inventory']]. *)
Record MoveRow := {
  move_product_id : option Z;
  move_date : Calendar.datetime;
  quantity_done : float
}.

Record RawData := {
  sales : list SaleRow;
  inventory : list MoveRow
}.

(** A row after cleaning: [date] is added, and [product_id] and
    [product_uom_qty] are not null. *)
Record CleanRow := {
  clean_sale : SaleRow;
  date : Calendar.date;
  product_id : Z;
  product_uom_qty : float
}.

(** A row with the temporal indicators. *)
Record TimeRow := {
  time_base : CleanRow;
  day_of_week : Z;
  month : Z;
  is_month_end : Z
}.

(** A row with the rolling columns ['7d_avg_sales'] and
    ['sales_growth_30d']. *)
Record RollRow := {
  roll_base : TimeRow;
  avg_sales_7d : float;
  sales_growth_30d : float
}.

(** A row of the inventory frame, its [date] normalised to a calendar
    date. *)
Record QuantRow := {
  quant_id : Z;
  quant_product_id : Z;
  quantity : float;
  quant_date : Calendar.date
}.

(** A row of a frame with the inventory columns: those of an inventory
    row (null when there is none) and the ratio. *)
Record JoinedRow := {
  join_base : RollRow;
  joined : option QuantRow;
  demand_supply_ratio : float
}.

(** A feature table: without or with the inventory columns. *)
Inductive FeatureTable : Type :=
  | Unjoined (rows : list RollRow)
  | Joined (rows : list JoinedRow).

Definition t_date (r : TimeRow) : Calendar.date := date (time_base r).
Definition t_product_id (r : TimeRow) : Z := product_id (time_base r).
Definition t_qty (r : TimeRow) : float := product_uom_qty (time_base r).

Definition r_date (r : RollRow) : Calendar.date := t_date (roll_base r).
Definition r_product_id (r : RollRow) : Z := t_product_id (roll_base r).
Definition r_qty (r : RollRow) : float := t_qty (roll_base r).

Definition j_date (r : JoinedRow) : Calendar.date := r_date (join_base r).
Definition j_product_id (r : JoinedRow) : Z := r_product_id (join_base r).
Definition j_qty (r : JoinedRow) : float := r_qty (join_base r).

Definition columns_sales : list string :=
  ["date_order"; "product_id"; "product_uom_qty"; "price_unit"].
Definition columns_rolled : list string :=
  columns_sales ++ ["date"; "day_of_week"; "month"; "is_month_end";
                    "7d_avg_sales"; "sales_growth_30d"].

Definition columns (df : FeatureTable) : list string :=
  match df with
  | Unjoined _ => columns_rolled
  | Joined _ => columns_rolled ++ ["quantity"; "demand_supply_ratio"]
  end.

Definition table_rows (df : FeatureTable) : list RollRow :=
  match df with
  | Unjoined rows => rows
  | Joined rows => join_base <$> rows
  end.

(** ** pandas operations *)

(** Row order by one key, and by two keys (the first one first). *)
Definition key_le {A} (key : A → Z) : relation A :=
  λ x y, key x ≤ key y.
Definition key2_le {A} (key1 key2 : A → Z) : relation A :=
  λ x y, key1 x < key1 y ∨ (key1 x = key1 y ∧ key2 x ≤ key2 y).

Global Instance key_le_dec {A} (key : A → Z) : RelDecision (key_le key).
Proof. intros x y. unfold key_le. apply _. Defined.
Global Instance key2_le_dec {A} (key1 key2 : A → Z) : RelDecision (key2_le key1 key2).
Proof. intros x y. unfold key2_le. apply _. Defined.

(** [df.sort_values(key)]. *)
Definition sort_values {A} (key : A → Z) (df : list A) : list A :=
  merge_sort (key_le key) df.

(** [df.sort_values([key1, key2])]. *)
Definition sort_values2 {A} (key1 key2 : A → Z) (df : list A) : list A :=
  merge_sort (key2_le key1 key2) df.

(** The keys of [df.groupby('product_id')]: the products of the frame,
    each once, in ascending order. *)
Definition group_keys (df : list TimeRow) : list Z :=
  merge_sort Z.le (remove_dups (t_product_id <$> df)).

(** The column ['product_uom_qty'] of the group of a key. *)
Definition group_column (df : list TimeRow) (key : Z) : list float :=
  t_qty <$> filter (λ r, t_product_id r = key) df.

(** [df.groupby('product_id')['product_uom_qty'].transform(f)]: [f] is
    called on the column of each group, the groups taken in key order,
    and an exception of [f] ends the transform; a frame without rows has
    no group, and [f] is not called.  For a frame in product order the
    result, indexed like the frame, is the columns that [f] returns, one
    after the other. *)
Definition groupby_transform (f : list float → result (list float))
    (df : list TimeRow) : result (list float) :=
  cols ← mapM (λ key, f (group_column df key)) (group_keys df);
  Ok (mjoin cols).

(** [x.rolling(window='<days>D', on=on).mean()], for the column [x] of a
    group and the column [on = df['date']] of the frame.  The rolling of
    a Series takes for [on] an [Index] or nothing: on a Series it raises
    [ValueError], before it reads a value of [x]. *)
Definition rolling_mean (days : Z) (on : list Calendar.date) (x : list float)
    : result (list float) :=
  Raise ValueError.

(** [pd.merge_asof(left, right, on='date', by='product_id',
    direction='backward')] for frames whose column ['date'] holds
    [datetime.date] objects (dtype [object], what [Series.dt.date]
    gives).  The merge takes numbers or timestamps for the key [on]: on
    a key of dtype [object] it raises [MergeError] when it checks its
    arguments, before it reads a row. *)
Definition merge_asof {A B} (left : list A) (right : list B)
    : result (list (A * option B)) :=
  Raise MergeError.

(** ** The pipeline *)

(** Step 1: data extraction. *)
Definition _extract_raw_data (env : Env) : RawData :=
  {| sales :=
       (λ o, {| date_order := so_date_order o;
                raw_product_id := so_product_id o;
                raw_product_uom_qty := so_product_uom_qty o;
                price_unit := so_price_unit o |})
       <$> filter (λ o, so_state o = "sale") (sale_order env);
     inventory :=
       (λ m, {| move_product_id := sm_product_id m;
                move_date := sm_date m;
                quantity_done := sm_quantity_done m |})
       <$> stock_move env |}.

(** [df.dropna(subset=['product_id', 'product_uom_qty'])] on a row that
    has its [date]. *)
Definition dropna (r : SaleRow * Calendar.date) : option CleanRow :=
  pid ← raw_product_id r.1;
  qty ← raw_product_uom_qty r.1;
  Some {| clean_sale := r.1; date := r.2; product_id := pid; product_uom_qty := qty |}.

(** Step 2: data cleaning.  [pd.DataFrame([])] has no columns, so that
    [df['date_order']] raises when no sale was read. *)
Definition _clean_data (env : Env) (raw_data : RawData) : result (list CleanRow) :=
  if bool_decide (sales raw_data = []) then Raise (KeyError "date_order")
  else
    let df := (λ s, (s, Calendar.dt_date (date_order s))) <$> sales raw_data in
    let df :=
      filter (λ r, Calendar.dt_date (Calendar.minus_years 1 (today env)) < r.2) df in
    Ok (omap dropna df).

(** Step 3: time features. *)
Definition _add_time_features (df : list CleanRow) : list TimeRow :=
  (λ r, {| time_base := r;
           day_of_week := Calendar.dayofweek (date r);
           month := Calendar.month (date r);
           is_month_end := if Calendar.is_month_end (date r) then 1 else 0 |})
  <$> df.

(** The expression of the growth rate, on the 30-day and the 60-day
    mean of a row. *)
Definition growth (m30 m60 : float) : float := (m30 / m60 - 1)%float.

(** Step 4: rolling features.  [window_days] is not used. *)
Definition _add_rolling_features (df : list TimeRow) (window_days : Z)
    : result (list RollRow) :=
  let df := sort_values2 t_product_id t_date df in
  let on := t_date <$> df in
  avg_sales ← groupby_transform (λ x, rolling_mean 7 on x) df;
  sales_growth ←
    groupby_transform
      (λ x, m30 ← rolling_mean 30 on x;
            m60 ← rolling_mean 60 on x;
            Ok (zip_with growth m30 m60))
      df;
  Ok (zip_with (λ r c, {| roll_base := r; avg_sales_7d := c.1; sales_growth_30d := c.2 |})
               df (zip avg_sales sales_growth)).

(** A row of [inventory_df], with [date] as a calendar date. *)
Definition quant_row (q : StockQuant) : QuantRow :=
  {| quant_id := sq_id q;
     quant_product_id := sq_product_id q;
     quantity := sq_quantity q;
     quant_date := Calendar.dt_date (sq_date q) |}.

(** The expression of the ratio, on the quantity sold and the quantity
    on hand of a row: [product_uom_qty / (quantity + 1e-6)]. *)
Definition ratio (qty on_hand : float) : float := (qty / (on_hand + 1e-6))%float.

(** The column ['quantity'] of a merged row: NaN when no inventory row
    was merged onto it. *)
Definition merged_quantity (m : option QuantRow) : float :=
  from_option quantity nan m.

(** Step 5: inventory features. *)
Definition _add_inventory_features (env : Env) (df : list RollRow)
    : result FeatureTable :=
  let inventory_df := stock_quant env in
  if bool_decide (inventory_df = []) then Ok (Unjoined df)
  else
    let inventory_df := quant_row <$> inventory_df in
    merged ← merge_asof (sort_values r_date df) (sort_values quant_date inventory_df);
    Ok (Joined ((λ m, {| join_base := m.1;
                         joined := m.2;
                         demand_supply_ratio := ratio (r_qty m.1) (merged_quantity m.2) |})
                <$> merged)).

(** The main data preparation method. *)
Definition prepare_training_data (env : Env) (lookback_days : Z)
    : result FeatureTable :=
  let raw_df := _extract_raw_data env in
  df ← _clean_data env raw_df;
  let df := _add_time_features df in
  df ← _add_rolling_features df lookback_days;
  _add_inventory_features env df.

(** ** Model training and prediction *)

(** The values of the four feature columns: day of week, month, 7-day
    average and demand/supply ratio. *)
Definition features : Type := Z * Z * float * float.

(** The regression model ([sklearn.ensemble.RandomForestRegressor]): what
    the engine needs of it. *)
Class Regressor := {
  model : Type;
  fit : list features → list float → result model;
  predict : model → features → result float
}.

(** The feature values of a row with the inventory columns. *)
Definition feature_vector (r : JoinedRow) : features :=
  (day_of_week (roll_base (join_base r)),
   month (roll_base (join_base r)),
   avg_sales_7d (join_base r),
   demand_supply_ratio r).

(** [df[['day_of_week', 'month', '7d_avg_sales', 'demand_supply_ratio']]]:
    a label of the list that is not a column raises. *)
Definition select_features (df : FeatureTable) : result (list features) :=
  match df with
  | Unjoined _ => Raise (KeyError "['demand_supply_ratio'] not in index")
  | Joined rows => Ok (feature_vector <$> rows)
  end.

(** A row of the feature table, as [iloc] returns it. *)
Inductive FeatureRow : Type :=
  | URow (r : RollRow)
  | JRow (r : JoinedRow).

(** [latest['7d_avg_sales']]. *)
Definition row_avg_sales_7d (r : FeatureRow) : float :=
  match r with
  | URow r => avg_sales_7d r
  | JRow r => avg_sales_7d (join_base r)
  end.

(** [latest['demand_supply_ratio']]. *)
Definition row_demand_supply_ratio (r : FeatureRow) : result float :=
  match r with
  | URow _ => Raise (KeyError "demand_supply_ratio")
  | JRow r => Ok (demand_supply_ratio r)
  end.

(** [df[df['product_id'] == pid]]. *)
Definition select_product (pid : Z) (df : FeatureTable) : FeatureTable :=
  match df with
  | Unjoined rows => Unjoined (filter (λ r, r_product_id r = pid) rows)
  | Joined rows => Joined (filter (λ r, j_product_id r = pid) rows)
  end.

(** [df.iloc[-1]]. *)
Definition iloc_last (df : FeatureTable) : result FeatureRow :=
  match df with
  | Unjoined rows => from_option (λ r, Ok (URow r)) (Raise IndexError) (last rows)
  | Joined rows => from_option (λ r, Ok (JRow r)) (Raise IndexError) (last rows)
  end.

(** The input of [model.predict] for a product: the day of week and the
    month of today, and the rolling average and the ratio of [latest]. *)
Definition input_data (env : Env) (latest : FeatureRow) (dsr : float) : features :=
  (Calendar.dayofweek (Calendar.dt_date (today env)),
   Calendar.month (Calendar.dt_date (today env)),
   row_avg_sales_7d latest,
   dsr).

Section Engine.

Context `{Regressor}.

Definition _train_model (df : FeatureTable) : result model :=
  X ← select_features df;
  let y := r_qty <$> table_rows df in
  fit X y.

(** The body of the loop of [_generate_predictions]. *)
Definition predict_product (env : Env) (m : model) (df : FeatureTable)
    (predictions : gmap Z float) (product : Product) : result (gmap Z float) :=
  latest ← iloc_last (select_product (id product) df);
  dsr ← row_demand_supply_ratio latest;
  y ← predict m (input_data env latest dsr);
  Ok (<[id product := y]> predictions).

Fixpoint predict_loop (env : Env) (m : model) (df : FeatureTable)
    (products : list Product) (predictions : gmap Z float)
    : result (gmap Z float) :=
  match products with
  | [] => Ok predictions
  | product :: products =>
      predictions ← predict_product env m df predictions product;
      predict_loop env m df products predictions
  end.

Definition _generate_predictions (env : Env) (m : model) (df : FeatureTable)
    : result (gmap Z float) :=
  predict_loop env m df (product_product env) ∅.

End Engine.

(** ** Automated actions *)

(** The category that [_flag_sales_opportunities] adds: the one that
    [env.ref] finds, or the one created in this run. *)
Inductive tag_ref : Type :=
  | ExistingTag (tag_id : Z)
  | CreatedTag.

(** The records that the engine creates or updates. *)
Inductive action : Type :=
  | create_orderpoint (product_id : Z) (product_min_qty product_max_qty : float)
                      (warehouse_id : option Z)
  | message_post (product_id : Z) (predicted_demand : float)
  | create_category (name : string)
  | write_category (product_id : Z) (tag : tag_ref).

(** [predictions.get(pid, 0)]. *)
Definition get (predictions : gmap Z float) (pid : Z) : float :=
  default 0%float (predictions !! pid).

(** The body of the loop of [_trigger_inventory_alerts]. *)
Definition alert_product (env : Env) (predictions : gmap Z float) (product : Product)
    : list action :=
  let predicted_demand := get predictions (id product) in
  let current_stock := qty_available product in
  if (current_stock <? predicted_demand)%float then
    [create_orderpoint (id product)
                       (predicted_demand * 1.2)%float
                       (predicted_demand * 1.5)%float
                       (head (stock_warehouse env));
     message_post (id product) predicted_demand]
  else [].

Definition _trigger_inventory_alerts (env : Env) (predictions : gmap Z float)
    : list action :=
  product ← product_product env; alert_product env predictions product.

(** The body of the loop of [_flag_sales_opportunities]. *)
Definition flag_product (tag : tag_ref) (predictions : gmap Z float) (product : Product)
    : list action :=
  if (qty_available product * 1.5 <? get predictions (id product))%float
  then [write_category (id product) tag]
  else [].

Definition _flag_sales_opportunities (env : Env) (predictions : gmap Z float)
    : list action :=
  let '(tag, created) :=
    match tag_sales_opportunity env with
    | Some t => (ExistingTag t, [])
    | None => (CreatedTag, [create_category "Sales Opportunity"])
    end in
  created ++ (product ← product_product env; flag_product tag predictions product).

(** The text that the main method returns: [Completed] is the text
    ['Predictions and automations completed successfully'], and
    [Error e] is ['Error: '] followed by the text [str(e)] of the
    exception that the method caught. *)
Inductive message : Type :=
  | Completed
  | Error (e : exn).

Section Run.

Context `{Regressor}.

(** The main method: the text that it returns and the actions that it
    has triggered. *)
Definition generate_and_act_on_predictions (env : Env) : message * list action :=
  let attempt :=
    df ← prepare_training_data env 365;
    m ← _train_model df;
    _generate_predictions env m df in
  match attempt with
  | Ok predictions =>
      (Completed,
       _trigger_inventory_alerts env predictions
       ++ _flag_sales_opportunities env predictions)
  | Raise e => (Error e, [])
  end.

End Run.

(** ** What a trace of actions says about a product *)

Definition reorder_issued (trace : list action) (pid : Z) : Prop :=
  ∃ mn mx w, create_orderpoint pid mn mx w ∈ trace.

Definition note_posted (trace : list action) (pid : Z) : Prop :=
  ∃ d, message_post pid d ∈ trace.

Definition tag_applied (trace : list action) (pid : Z) : Prop :=
  ∃ t, write_category pid t ∈ trace.

(** The day before which the cleaning step drops a sale. *)
Definition cutoff (env : Env) : Calendar.date :=
  Calendar.dt_date (Calendar.minus_years 1 (today env)).

(** ** Sample inputs *)

Module Samples.

Definition at_1am (y m d : Z) : Calendar.datetime :=
  {| Calendar.dt_date := Calendar.days_from_civil y m d;
     Calendar.dt_second := 3600 |}.

Definition order (i : Z) (t : Calendar.datetime) (pid : Z) (qty : float) : SaleOrder :=
  {| so_id := i; so_state := "sale"; so_date_order := t;
     so_product_id := Some pid; so_product_uom_qty := Some qty;
     so_price_unit := 1 |}.

Definition quant (i pid : Z) (qty : float) (t : Calendar.datetime) : StockQuant :=
  {| sq_id := i; sq_product_id := pid; sq_quantity := qty; sq_date := t |}.

Definition empty_env : Env :=
  {| sale_order := []; stock_move := []; stock_quant := [];
     product_product := []; stock_warehouse := [];
     tag_sales_opportunity := None; today := at_1am 2024 6 15 |}.

Definition with_sales (l : list SaleOrder) (env : Env) : Env :=
  {| sale_order := l; stock_move := stock_move env;
     stock_quant := stock_quant env; product_product := product_product env;
     stock_warehouse := stock_warehouse env;
     tag_sales_opportunity := tag_sales_opportunity env; today := today env |}.

Definition with_quants (l : list StockQuant) (env : Env) : Env :=
  {| sale_order := sale_order env; stock_move := stock_move env;
     stock_quant := l; product_product := product_product env;
     stock_warehouse := stock_warehouse env;
     tag_sales_opportunity := tag_sales_opportunity env; today := today env |}.

Definition with_products (l : list Product) (env : Env) : Env :=
  {| sale_order := sale_order env; stock_move := stock_move env;
     stock_quant := stock_quant env; product_product := l;
     stock_warehouse := stock_warehouse env;
     tag_sales_opportunity := tag_sales_opportunity env; today := today env |}.

(** A catalog of one product with the stock [stock]. *)
Definition one_product (stock : float) : Env :=
  with_products [{| id := 1; qty_available := stock |}] empty_env.

(** A sale of two years before today. *)
Definition stale_sale : Env :=
  with_sales [order 1 (at_1am 2022 6 15) 1 10] empty_env.

(** A sale of 100 days before today. *)
Definition old_sale : Env :=
  with_sales [order 1 (at_1am 2024 3 7) 1 10] empty_env.



(** A sale of two years before today, and an inventory level. *)
Definition stale_sale_with_stock : Env :=
  with_quants [quant 1 1 4 (at_1am 2024 6 1)] stale_sale.

(** Two sales of product 1, two days apart, and one of product 2 in
    between. *)
Definition two_products : Env :=
  with_sales [order 1 (at_1am 2024 6 1) 1 10; order 2 (at_1am 2024 6 2) 2 5;
              order 3 (at_1am 2024 6 3) 1 20] empty_env.

(** The table that reaches the rolling step. *)
Definition time_rows (env : Env) : list TimeRow :=
  match _clean_data env (_extract_raw_data env) with
  | Ok df => _add_time_features df
  | Raise _ => []
  end.

(** A frame made by hand: a row of the product [pid] on the day [d] with
    the rolling columns [avg] and [growth]. *)
Definition roll_row (pid : Z) (d : Calendar.date) (qty avg growth : float) : RollRow :=
  {| roll_base :=
       {| time_base :=
            {| clean_sale :=
                 {| date_order := {| Calendar.dt_date := d; Calendar.dt_second := 3600 |};
                    raw_product_id := Some pid;
                    raw_product_uom_qty := Some qty;
                    price_unit := 1 |};
               date := d; product_id := pid; product_uom_qty := qty |};
          day_of_week := Calendar.dayofweek d;
          month := Calendar.month d;
          is_month_end := if Calendar.is_month_end d then 1 else 0 |};
     avg_sales_7d := avg;
     sales_growth_30d := growth |}.

(** The same row with the inventory columns of a level of [on_hand] of
    the day before. *)
Definition joined_row (pid : Z) (d : Calendar.date) (qty avg growth on_hand : float)
    : JoinedRow :=
  {| join_base := roll_row pid d qty avg growth;
     joined := Some {| quant_id := 1; quant_product_id := pid;
                       quantity := on_hand; quant_date := d - 1 |};
     demand_supply_ratio := ratio qty on_hand |}.

(** A feature table made by hand, with the inventory columns and with
    one row, of product 1. *)
Definition one_row_table : FeatureTable :=
  Joined [joined_row 1 (Calendar.days_from_civil 2024 6 2) 10 10 0 4].

(** A catalog of the products 1 and 2. *)
Definition two_product_catalog : Env :=
  with_products [{| id := 1; qty_available := 3 |};
                 {| id := 2; qty_available := 3 |}] empty_env.

(** A regressor that always predicts 10 units. *)
Definition constant_regressor : Regressor :=
  {| model := unit; fit := λ _ _, Ok (); predict := λ _ _, Ok 10%float |}.

End Samples.

Module Scenarios.

(** An order that is not confirmed. *)
Definition draft_order : Env :=
  Samples.with_sales
    [{| so_id := 1; so_state := "draft";
        so_date_order := Samples.at_1am 2024 6 2;
        so_product_id := Some 1; so_product_uom_qty := Some 10%float;
        so_price_unit := 1 |}]
    Samples.empty_env.

(** [env] with other stock moves. *)
Definition with_moves (l : list StockMove) (env : Env) : Env :=
  {| sale_order := sale_order env; stock_move := l;
     stock_quant := stock_quant env; product_product := product_product env;
     stock_warehouse := stock_warehouse env;
     tag_sales_opportunity := tag_sales_opportunity env; today := today env |}.

End Scenarios.

(** * Properties *)

(** ** Comparisons and products of binary64 numbers *)

Lemma binary_round_aux_not_negative (m e : Z) (l : location) :
  SFltb (binary_round_aux prec emax false m e l) (S754_zero false) = false.
Proof.
  unfold binary_round_aux.
  destruct (shr_fexp _ _ _ _ _) as [mrs' e'].
  destruct (shr_fexp _ _ _ _ _) as [mrs'' e''].
  destruct (shr_m mrs''); [reflexivity| |reflexivity].
  destruct (Z.leb _ _); reflexivity.
Qed.

(** A number that is not below 0 is not negative. *)
Lemma not_negative_ltb (s : float) : (0 <=? s)%float = true → (s <? 0)%float = false.
Proof.
  rewrite leb_spec, ltb_spec.
  change (Prim2SF 0) with (S754_zero false).
  destruct (Prim2SF s) as [b|b| |b m e]; simpl; try discriminate;
    destruct b; try discriminate; reflexivity.
Qed.

(** Nor is 1.5 times that number, as the product is rounded. *)
Lemma not_negative_scaled (s : float) :
  (0 <=? s)%float = true → (s * 1.5 <? 0)%float = false.
Proof.
  rewrite leb_spec, ltb_spec, mul_spec.
  change (Prim2SF 0) with (S754_zero false).
  change (Prim2SF 1.5) with (S754_finite false 6755399441055744 (-52)).
  destruct (Prim2SF s) as [b|b| |b m e]; simpl.
  - destruct b; reflexivity.
  - destruct b; [discriminate|reflexivity].
  - discriminate.
  - destruct b; [discriminate|]. intros _. apply binary_round_aux_not_negative.
Qed.

Lemma NoDup_fmap_eq {A B} (f : A → B) (l : list A) (x y : A) :
  NoDup (f <$> l) → x ∈ l → y ∈ l → f x = f y → x = y.
Proof.
  induction l as [|a l IH]; intros Hnd Hx Hy Hf; [by apply elem_of_nil in Hx|].
  rewrite fmap_cons in Hnd. apply NoDup_cons in Hnd as [Ha Hnd].
  apply elem_of_cons in Hx as [->|Hx]; apply elem_of_cons in Hy as [->|Hy].
  - done.
  - exfalso. apply Ha. rewrite Hf. by apply list_elem_of_fmap_2.
  - exfalso. apply Ha. rewrite <- Hf. by apply list_elem_of_fmap_2.
  - by apply IH.
Qed.

(** ** The action engine *)

Lemma elem_of_alert_product env predictions product a :
  a ∈ alert_product env predictions product ↔
  (qty_available product <? get predictions (id product))%float = true ∧
  (a = create_orderpoint (id product)
         (get predictions (id product) * 1.2)%float
         (get predictions (id product) * 1.5)%float
         (head (stock_warehouse env))
   ∨ a = message_post (id product) (get predictions (id product))).
Proof.
  unfold alert_product.
  destruct (qty_available product <? get predictions (id product))%float.
  - rewrite !elem_of_cons, elem_of_nil.
    split; [intros [->|[->|Hf]]; by auto | intros [_ [-> | ->]]; by auto].
  - rewrite elem_of_nil. split; [done | by intros [? _]].
Qed.

Lemma elem_of_flag_product tag predictions product a :
  a ∈ flag_product tag predictions product ↔
  (qty_available product * 1.5 <? get predictions (id product))%float = true ∧
  a = write_category (id product) tag.
Proof.
  unfold flag_product.
  destruct (qty_available product * 1.5 <? get predictions (id product))%float.
  - rewrite elem_of_cons, elem_of_nil.
    split; [intros [->|Hf]; by auto | intros [_ ->]; by auto].
  - rewrite elem_of_nil. split; [done | by intros [? _]].
Qed.

Lemma elem_of_alerts env predictions a :
  a ∈ _trigger_inventory_alerts env predictions ↔
  ∃ product, product ∈ product_product env ∧ a ∈ alert_product env predictions product.
Proof.
  unfold _trigger_inventory_alerts. rewrite list_elem_of_bind.
  split; intros (p & ? & ?); by exists p.
Qed.

Lemma elem_of_flags env predictions pid t :
  write_category pid t ∈ _flag_sales_opportunities env predictions →
  ∃ product, product ∈ product_product env ∧ id product = pid ∧
    (qty_available product * 1.5 <? get predictions (id product))%float = true.
Proof.
  unfold _flag_sales_opportunities.
  destruct (tag_sales_opportunity env) as [t'|]; simpl.
  - intros (p & Hp & Hin)%list_elem_of_bind.
    apply elem_of_flag_product in Hp as [Hlt Heq].
    injection Heq as -> _. by exists p.
  - intros [Hc|(p & Hp & Hin)%list_elem_of_bind]%elem_of_cons; [done|].
    apply elem_of_flag_product in Hp as [Hlt Heq].
    injection Heq as -> _. by exists p.
Qed.

Lemma flags_of_product env predictions product :
  product ∈ product_product env →
  (qty_available product * 1.5 <? get predictions (id product))%float = true →
  tag_applied (_flag_sales_opportunities env predictions) (id product).
Proof.
  intros Hin Hlt. unfold tag_applied, _flag_sales_opportunities.
  destruct (tag_sales_opportunity env) as [t'|]; simpl.
  - exists (ExistingTag t'). apply list_elem_of_bind. exists product.
    split; [|done]. by apply elem_of_flag_product.
  - exists CreatedTag. apply elem_of_cons. right. apply list_elem_of_bind.
    exists product. split; [|done]. by apply elem_of_flag_product.
Qed.

(** The reorder rule, the note and the tag of a catalog product are
    decided by the stock of that product and by [predictions.get]. *)
Lemma actions_of_product env predictions product :
  product ∈ product_product env →
  NoDup (id <$> product_product env) →
  let demand := get predictions (id product) in
  let alerts := _trigger_inventory_alerts env predictions in
  let flags := _flag_sales_opportunities env predictions in
  (reorder_issued alerts (id product) ↔ (qty_available product <? demand)%float = true)
  ∧ (note_posted alerts (id product) ↔ (qty_available product <? demand)%float = true)
  ∧ (∀ mn mx w, create_orderpoint (id product) mn mx w ∈ alerts →
       mn = (demand * 1.2)%float ∧ mx = (demand * 1.5)%float)
  ∧ (tag_applied flags (id product)
     ↔ (qty_available product * 1.5 <? demand)%float = true).
Proof.
  intros Hin Hnd demand alerts flags.
  assert (Hsame : ∀ p, p ∈ product_product env → id p = id product → p = product).
  { intros p Hp Hid. by apply (NoDup_fmap_eq id (product_product env)). }
  split; [split|split; [split|split; [|split]]].
  - intros (mn & mx & w & (p & Hp & Ha)%elem_of_alerts).
    apply elem_of_alert_product in Ha as [Hlt [Ha|Ha]]; [|done].
    injection Ha as Hid _ _ _. by rewrite (Hsame p Hp) in Hlt.
  - intros Hlt. eexists _, _, _. apply elem_of_alerts. exists product.
    split; [done|]. apply elem_of_alert_product. split; [done|]. by left.
  - intros (d & (p & Hp & Ha)%elem_of_alerts).
    apply elem_of_alert_product in Ha as [Hlt [Ha|Ha]]; [done|].
    injection Ha as Hid _. by rewrite (Hsame p Hp) in Hlt.
  - intros Hlt. eexists. apply elem_of_alerts. exists product.
    split; [done|]. apply elem_of_alert_product. split; [done|]. by right.
  - intros mn mx w (p & Hp & Ha)%elem_of_alerts.
    apply elem_of_alert_product in Ha as [Hlt [Ha|Ha]]; [|done].
    injection Ha as Hid -> -> _. by rewrite (Hsame p Hp).
  - intros (t & (p & Hp & Hid & Hlt)%elem_of_flags).
    by rewrite (Hsame p Hp) in Hlt.
  - intros Hlt. by apply flags_of_product.
Qed.

(** C3.  For every catalog product with an entry in the prediction map,
    a reorder rule is created (and a note posted) if and only if the
    current stock is below the predicted demand, with the minimum
    quantity [demand * 1.2] and the maximum quantity [demand * 1.5]; the
    opportunity tag is applied if and only if the predicted demand is
    above [stock * 1.5].  Comparisons and products are those of binary64
    numbers, as the code computes them.  The two tests are independent:
    there are products that trigger both, only the reorder rule, only
    the tag, and neither. *)
Theorem action_engine_thresholds :
  (∀ env predictions product demand,
     product ∈ product_product env →
     NoDup (id <$> product_product env) →
     predictions !! id product = Some demand →
     let alerts := _trigger_inventory_alerts env predictions in
     let flags := _flag_sales_opportunities env predictions in
     (reorder_issued alerts (id product) ↔ (qty_available product <? demand)%float = true)
     ∧ (note_posted alerts (id product) ↔ (qty_available product <? demand)%float = true)
     ∧ (∀ mn mx w, create_orderpoint (id product) mn mx w ∈ alerts →
          mn = (demand * 1.2)%float ∧ mx = (demand * 1.5)%float)
     ∧ (tag_applied flags (id product)
        ↔ (qty_available product * 1.5 <? demand)%float = true))
  ∧ (∀ reorder tag : bool, ∃ stock demand,
       let env := Samples.one_product stock in
       let predictions : gmap Z float := {[ 1 := demand ]} in
       (reorder_issued (_trigger_inventory_alerts env predictions) 1 ↔ reorder = true)
       ∧ (tag_applied (_flag_sales_opportunities env predictions) 1 ↔ tag = true)).
Proof.
  assert (Hall : ∀ env predictions product demand,
     product ∈ product_product env →
     NoDup (id <$> product_product env) →
     predictions !! id product = Some demand →
     let alerts := _trigger_inventory_alerts env predictions in
     let flags := _flag_sales_opportunities env predictions in
     (reorder_issued alerts (id product) ↔ (qty_available product <? demand)%float = true)
     ∧ (note_posted alerts (id product) ↔ (qty_available product <? demand)%float = true)
     ∧ (∀ mn mx w, create_orderpoint (id product) mn mx w ∈ alerts →
          mn = (demand * 1.2)%float ∧ mx = (demand * 1.5)%float)
     ∧ (tag_applied flags (id product)
        ↔ (qty_available product * 1.5 <? demand)%float = true)).
  { intros env predictions product demand Hin Hnd Hget.
    pose proof (actions_of_product env predictions product Hin Hnd) as Hact.
    unfold get in Hact. by rewrite Hget in Hact. }
  split; [exact Hall|].
  intros reorder tag.
  assert (Hone : ∀ stock demand,
    let env := Samples.one_product stock in
    let predictions : gmap Z float := {[ 1 := demand ]} in
    (reorder_issued (_trigger_inventory_alerts env predictions) 1
     ↔ (stock <? demand)%float = true)
    ∧ (tag_applied (_flag_sales_opportunities env predictions) 1
       ↔ (stock * 1.5 <? demand)%float = true)).
  { intros stock demand env predictions.
    destruct (Hall env predictions {| id := 1; qty_available := stock |} demand)
      as (Hr & _ & _ & Ht).
    - apply list_elem_of_singleton. reflexivity.
    - apply NoDup_singleton.
    - apply lookup_singleton_eq.
    - by split. }
  set (pick := λ (reorder tag : bool),
         match reorder, tag with
         | true, true => (3, 10)
         | true, false => (8, 10)
         | false, true => (-2, -2.5)
         | false, false => (20, 10)
         end%float).
  exists (pick reorder tag).1, (pick reorder tag).2. cbv zeta.
  destruct (Hone (pick reorder tag).1 (pick reorder tag).2) as [Hr Ht].
  rewrite Hr, Ht.
  destruct reorder, tag; split; split; intros Heq;
    first [reflexivity | exact Heq | discriminate Heq].
Qed.

Lemma action_engine_thresholds_witness :
  let env := Samples.one_product 3 in
  let predictions : gmap Z float := {[ 1 := 10%float ]} in
  reorder_issued (_trigger_inventory_alerts env predictions) 1
  ∧ tag_applied (_flag_sales_opportunities env predictions) 1.
Proof.
  intros env predictions.
  destruct (proj1 action_engine_thresholds env predictions
              {| id := 1; qty_available := 3 |} 10%float) as (Hr & _ & _ & Ht).
  - apply list_elem_of_singleton. reflexivity.
  - apply NoDup_singleton.
  - apply lookup_singleton_eq.
  - split; [apply Hr | apply Ht]; reflexivity.
Defined.

(** A product that is absent from the prediction map and has a negative
    stock gets a reorder rule, a note and the tag. *)
Lemma absent_product_negative_stock :
  let env := Samples.one_product (-5) in
  let product := {| id := 1; qty_available := -5 |} in
  let predictions : gmap Z float := ∅ in
  product ∈ product_product env
  ∧ predictions !! id product = None
  ∧ reorder_issued (_trigger_inventory_alerts env predictions) (id product)
  ∧ note_posted (_trigger_inventory_alerts env predictions) (id product)
  ∧ tag_applied (_flag_sales_opportunities env predictions) (id product).
Proof.
  intros env product predictions.
  assert (Hin : product ∈ product_product env)
    by (apply list_elem_of_singleton; reflexivity).
  destruct (actions_of_product env predictions product Hin) as (Hr & Hn & _ & Ht).
  { apply NoDup_singleton. }
  split; [done|]. split; [done|].
  split; [apply Hr|split; [apply Hn|apply Ht]]; reflexivity.
Qed.

(** C7, amended.  For every catalog product that is absent from the
    prediction map and whose stock is not negative, no reorder rule is
    created, no note is posted and no tag is applied: an absent product
    counts as a predicted demand of 0. *)
Theorem absent_product_no_action env predictions product :
  product ∈ product_product env →
  NoDup (id <$> product_product env) →
  predictions !! id product = None →
  (0 <=? qty_available product)%float = true →
  ¬ reorder_issued (_trigger_inventory_alerts env predictions) (id product)
  ∧ ¬ note_posted (_trigger_inventory_alerts env predictions) (id product)
  ∧ ¬ tag_applied (_flag_sales_opportunities env predictions) (id product).
Proof.
  intros Hin Hnd Hget Hstock.
  destruct (actions_of_product env predictions product Hin Hnd) as (Hr & Hn & _ & Ht).
  unfold get in Hr, Hn, Ht. rewrite Hget in Hr, Hn, Ht. simpl in Hr, Hn, Ht.
  rewrite Hr, Hn, Ht.
  rewrite (not_negative_ltb _ Hstock), (not_negative_scaled _ Hstock).
  repeat split; discriminate.
Qed.

Lemma absent_product_no_action_witness :
  let env := Samples.one_product 0 in
  ¬ reorder_issued (_trigger_inventory_alerts env ∅) 1
  ∧ ¬ note_posted (_trigger_inventory_alerts env ∅) 1
  ∧ ¬ tag_applied (_flag_sales_opportunities env ∅) 1.
Proof.
  intros env.
  apply (absent_product_no_action env ∅ {| id := 1; qty_available := 0 |}).
  - apply list_elem_of_singleton. reflexivity.
  - apply NoDup_singleton.
  - reflexivity.
  - reflexivity.
Defined.

(** ** The inventory step without inventory levels *)

Lemma demand_supply_ratio_not_rolled : "demand_supply_ratio" ∉ columns_rolled.
Proof.
  unfold columns_rolled, columns_sales. simpl. intros Hin.
  repeat (apply elem_of_cons in Hin as [Hin|Hin]; [discriminate Hin|]).
  by apply elem_of_nil in Hin.
Qed.

(** C10.  When no inventory level is read, the inventory step returns its
    input table as it is: nothing is merged and the column
    [demand_supply_ratio] is not added, and the selection of the feature
    columns in the model trainer raises on it. *)
Theorem empty_inventory_returns_input `{Regressor} (env : Env) (df : list RollRow) :
  stock_quant env = [] →
  _add_inventory_features env df = Ok (Unjoined df)
  ∧ ("demand_supply_ratio" ∉ columns (Unjoined df))
  ∧ _train_model (Unjoined df)
    = Raise (KeyError "['demand_supply_ratio'] not in index").
Proof.
  intros Hempty. split; [|split; [|done]].
  - unfold _add_inventory_features. by rewrite Hempty.
  - apply demand_supply_ratio_not_rolled.
Qed.

Lemma empty_inventory_returns_input_witness :
  let env := Samples.old_sale in
  _add_inventory_features env [] = Ok (Unjoined [])
  ∧ ("demand_supply_ratio" ∉ columns (Unjoined []))
  ∧ @_train_model Samples.constant_regressor (Unjoined [])
    = Raise (KeyError "['demand_supply_ratio'] not in index").
Proof.
  intros env.
  apply (@empty_inventory_returns_input Samples.constant_regressor env []).
  reflexivity.
Defined.

(** ** The inventory step with inventory levels *)

(** C1.  When an inventory level is read, the inventory step raises
    [MergeError] in the asof-merge, on every table (also on a table
    without rows): the keys of the merge are the [datetime.date] objects
    that [.dt.date] has made of the dates.  No inventory level is merged
    onto a sales row, and no ratio is computed. *)
Theorem inventory_merge_raises (env : Env) (df : list RollRow) :
  stock_quant env ≠ [] →
  _add_inventory_features env df = Raise MergeError.
Proof.
  intros Hne. unfold _add_inventory_features. by rewrite bool_decide_eq_false_2.
Qed.

Lemma inventory_merge_raises_witness :
  let env := Samples.stale_sale_with_stock in
  let df := [Samples.roll_row 1 (Calendar.days_from_civil 2024 6 2) 10 10 0] in
  _add_inventory_features env df = Raise MergeError
  ∧ _add_inventory_features env [] = Raise MergeError
  ∧ prepare_training_data env 365 = Raise MergeError.
Proof.
  intros env df.
  split; [|split]; [apply (inventory_merge_raises env); discriminate..|].
  vm_compute. reflexivity.
Defined.

(** ** The rolling step *)

Lemma mapM_raise {A B} (f : A → result B) (l : list A) (e : exn) :
  l ≠ [] → (∀ x, f x = Raise e) → mapM f l = Raise e.
Proof. destruct l as [|x l]; [done|]. intros _ Hf. simpl. by rewrite Hf. Qed.

Lemma group_keys_nonempty (df : list TimeRow) : df ≠ [] → group_keys df ≠ [].
Proof.
  destruct df as [|r df]; [done|]. intros _ Hnil.
  assert (t_product_id r ∈ group_keys (r :: df)) as Hin.
  { unfold group_keys. rewrite merge_sort_Permutation.
    apply elem_of_remove_dups. rewrite fmap_cons. apply elem_of_cons. by left. }
  rewrite Hnil in Hin. by apply elem_of_nil in Hin.
Qed.

(** A transform whose function raises on every column raises on every
    frame with a row. *)
Lemma groupby_transform_raise f (df : list TimeRow) (e : exn) :
  df ≠ [] → (∀ x, f x = Raise e) → groupby_transform f df = Raise e.
Proof.
  intros Hne Hf. unfold groupby_transform.
  rewrite (mapM_raise _ (group_keys df) e); [done| |].
  - by apply group_keys_nonempty.
  - intros key. apply Hf.
Qed.

Lemma sort_values2_nonempty {A} (key1 key2 : A → Z) (df : list A) :
  df ≠ [] → sort_values2 key1 key2 df ≠ [].
Proof.
  intros Hne Hnil. apply Hne. apply Permutation_nil_r.
  rewrite <- Hnil. unfold sort_values2. by rewrite merge_sort_Permutation.
Qed.

Lemma rolling_features_outcome (df : list TimeRow) (window_days : Z) :
  _add_rolling_features df window_days
  = if bool_decide (df = []) then Ok [] else Raise ValueError.
Proof.
  case_bool_decide as Hdf.
  - subst df. reflexivity.
  - pose proof (sort_values2_nonempty t_product_id t_date df Hdf) as Hne.
    assert (groupby_transform
              (λ x, rolling_mean 7 (t_date <$> sort_values2 t_product_id t_date df) x)
              (sort_values2 t_product_id t_date df) = Raise ValueError) as Havg
      by (by apply groupby_transform_raise).
    unfold _add_rolling_features. cbv zeta. by rewrite Havg.
Qed.

(** C2.  The rolling step returns a table only for a table without
    rows.  On every table with a row it raises [ValueError], in the
    first call of [rolling] on the first group and whatever
    [window_days] is: no trailing mean is computed for any row of any
    product. *)
Theorem rolling_features_raise (df : list TimeRow) (window_days : Z) :
  _add_rolling_features df window_days
  = if bool_decide (df = []) then Ok [] else Raise ValueError.
Proof.
  case_bool_decide as Hdf; [by subst df|].
  set (sorted := sort_values2 t_product_id t_date df).
  assert (sorted ≠ []) as Hne by (by apply sort_values2_nonempty).
  assert (groupby_transform (λ x, rolling_mean 7 (t_date <$> sorted) x) sorted
          = Raise ValueError) as Havg.
  { apply groupby_transform_raise; [exact Hne|]. intros x. reflexivity. }
  unfold _add_rolling_features. cbv zeta. fold sorted. by rewrite Havg.
Qed.

Lemma rolling_features_raise_witness :
  _add_rolling_features (Samples.time_rows Samples.two_products) 365 = Raise ValueError.
Proof.
  rewrite rolling_features_raise. reflexivity.
Defined.

(** ** The pipeline, stage by stage *)

Lemma prepare_training_data_outcome (env : Env) (lookback_days : Z) :
  prepare_training_data env lookback_days
  = match _clean_data env (_extract_raw_data env) with
    | Raise e => Raise e
    | Ok [] => _add_inventory_features env []
    | Ok (_ :: _) => Raise ValueError
    end.
Proof.
  unfold prepare_training_data.
  destruct (_clean_data env (_extract_raw_data env)) as [[|r df]|e]; simpl.
  - reflexivity.
  - by rewrite rolling_features_outcome.
  - reflexivity.
Qed.

(** ** The cleaning window *)


Lemma elem_of_clean_data env raw_data df r :
  _clean_data env raw_data = Ok df →
  r ∈ df ↔
  ∃ s pid qty,
    s ∈ sales raw_data
    ∧ (Calendar.dt_date (Calendar.minus_years 1 (today env))
       < Calendar.dt_date (date_order s))
    ∧ raw_product_id s = Some pid
    ∧ raw_product_uom_qty s = Some qty
    ∧ r = {| clean_sale := s; date := Calendar.dt_date (date_order s);
             product_id := pid; product_uom_qty := qty |}.
Proof.
  unfold _clean_data. case_bool_decide; [done|]. intros [= <-].
  rewrite list_elem_of_omap. split.
  - intros ([s d] & Hin & Hdrop).
    apply list_elem_of_filter in Hin as [Hlt Hin]. simpl in Hlt.
    apply list_elem_of_fmap in Hin as (s' & [= <- ->] & Hin).
    unfold dropna in Hdrop. simpl in Hdrop.
    destruct (raw_product_id s) as [pid|] eqn:Hpid; [|done].
    destruct (raw_product_uom_qty s) as [qty|] eqn:Hqty; [|done].
    simpl in Hdrop. injection Hdrop as <-. by exists s, pid, qty.
  - intros (s & pid & qty & Hin & Hlt & Hpid & Hqty & ->).
    exists (s, Calendar.dt_date (date_order s)). split.
    + apply list_elem_of_filter. split; [done|].
      apply list_elem_of_fmap. by exists s.
    + unfold dropna. simpl. by rewrite Hpid, Hqty.
Qed.



(** ** No sale left after cleaning *)

(** The only sale is two years old: the cleaning step leaves no row, the
    later steps of the preparation run on the table without rows, and
    the run ends on the column that the model trainer does not find. *)
Lemma empty_cleaning_is_not_an_error :
  let env := Samples.stale_sale in
  _clean_data env (_extract_raw_data env) = Ok []
  ∧ prepare_training_data env 365 = Ok (Unjoined [])
  ∧ @generate_and_act_on_predictions Samples.constant_regressor env
    = (Error (KeyError "['demand_supply_ratio'] not in index"), []).
Proof. intros env. split; [|split]; vm_compute; reflexivity. Qed.

(** C9, amended.  When the cleaning step leaves no row, no error is
    raised for it: the time and the rolling step return a table without
    rows and the inventory step is run on that table.  When no
    inventory level is read, the preparation returns the table without
    rows, the model trainer raises on the missing column
    [demand_supply_ratio], and the run returns the text of that error
    and triggers no action. *)
Theorem empty_cleaning_proceeds `{Regressor} (env : Env) (lookback_days : Z) :
  _clean_data env (_extract_raw_data env) = Ok [] →
  prepare_training_data env lookback_days = _add_inventory_features env []
  ∧ (stock_quant env = [] →
     prepare_training_data env lookback_days = Ok (Unjoined [])
     ∧ _train_model (Unjoined [])
       = Raise (KeyError "['demand_supply_ratio'] not in index")
     ∧ generate_and_act_on_predictions env
       = (Error (KeyError "['demand_supply_ratio'] not in index"), [])).
Proof.
  intros Hclean.
  assert (∀ lb, prepare_training_data env lb = _add_inventory_features env []) as Hprep.
  { intros lb. by rewrite prepare_training_data_outcome, Hclean. }
  split; [apply Hprep|]. intros Hquant.
  assert (_add_inventory_features env [] = Ok (Unjoined [])) as Hinv.
  { unfold _add_inventory_features. by rewrite Hquant. }
  split; [by rewrite Hprep|]. split; [done|].
  unfold generate_and_act_on_predictions. by rewrite Hprep, Hinv.
Qed.

Lemma empty_cleaning_proceeds_witness :
  prepare_training_data Samples.stale_sale 365 = Ok (Unjoined [])
  ∧ @_train_model Samples.constant_regressor (Unjoined [])
    = Raise (KeyError "['demand_supply_ratio'] not in index")
  ∧ @generate_and_act_on_predictions Samples.constant_regressor Samples.stale_sale
    = (Error (KeyError "['demand_supply_ratio'] not in index"), []).
Proof.
  refine (proj2 (@empty_cleaning_proceeds Samples.constant_regressor
                   Samples.stale_sale 365 _) _).
  - vm_compute. reflexivity.
  - reflexivity.
Defined.

(** ** A catalog product without feature rows *)

Lemma predict_product_no_rows `{Regressor} env m df predictions product :
  table_rows (select_product (id product) df) = [] →
  predict_product env m df predictions product = Raise IndexError.
Proof.
  unfold predict_product. destruct df as [rows|rows]; simpl; intros Hrows.
  - by rewrite Hrows.
  - apply fmap_nil_inv in Hrows. by rewrite Hrows.
Qed.

(** Whatever the regressor, the prediction loop does not return a
    prediction map when one catalog product has no feature row. *)
Lemma predict_loop_no_rows `{Regressor} env m df products predictions product :
  product ∈ products →
  table_rows (select_product (id product) df) = [] →
  ∃ e, predict_loop env m df products predictions = Raise e.
Proof.
  intros Hin Hrows. revert predictions.
  induction products as [|p products IH]; intros predictions;
    [by apply elem_of_nil in Hin|].
  simpl. apply elem_of_cons in Hin as [<-|Hin].
  - rewrite predict_product_no_rows by done. by eexists.
  - destruct (predict_product env m df predictions p) as [predictions'|e]; simpl.
    + by apply IH.
    + by eexists.
Qed.

(** C8.  For every feature table and every catalog, a catalog product
    without a row in the table is not skipped: the predictor returns no
    prediction map at all.  On a table with one row of product 1 and a
    catalog of the products 1 and 2, the selection of the latest row of
    product 2 raises [IndexError], and product 1 gets no prediction
    either. *)
Theorem no_history_product_raises :
  (∀ (R : Regressor) env m df product,
     product ∈ product_product env →
     table_rows (select_product (id product) df) = [] →
     ∃ e, _generate_predictions env m df = Raise e)
  ∧ (let env := Samples.two_product_catalog in
     let df := Samples.one_row_table in
     length (table_rows (select_product 1 df)) = 1%nat
     ∧ table_rows (select_product 2 df) = []
     ∧ @_train_model Samples.constant_regressor df = Ok ()
     ∧ @_generate_predictions Samples.constant_regressor env () df
       = Raise IndexError).
Proof.
  split.
  - intros R env m df product Hin Hrows. by apply (predict_loop_no_rows env m df _ ∅ product).
  - repeat split; vm_compute; reflexivity.
Qed.

Lemma no_history_product_raises_witness :
  ∃ e, @_generate_predictions Samples.constant_regressor
         Samples.two_product_catalog () Samples.one_row_table = Raise e.
Proof.
  apply (proj1 no_history_product_raises Samples.constant_regressor
           Samples.two_product_catalog () Samples.one_row_table
           {| id := 2; qty_available := 3 |}).
  - apply elem_of_cons. right. apply elem_of_cons. left. reflexivity.
  - reflexivity.
Defined.

(** ** Divisions of binary64 numbers *)




Lemma shr_1_not_negative (mrs : shr_record) : 0 ≤ shr_m mrs → 0 ≤ shr_m (shr_1 mrs).
Proof. destruct mrs as [[|[p|p|]|p] r s]; simpl; lia. Qed.

Lemma iter_shr_1_not_negative (p : positive) (mrs : shr_record) :
  0 ≤ shr_m mrs → 0 ≤ shr_m (@SpecFloat.iter_pos _ shr_1 p mrs).
Proof.
  revert mrs. induction p as [p IH|p IH|]; intros mrs Hm; simpl.
  - apply IH, IH. by apply shr_1_not_negative.
  - by apply IH, IH.
  - by apply shr_1_not_negative.
Qed.

Lemma shr_fexp_not_negative (m e : Z) (l : location) :
  0 ≤ m → 0 ≤ shr_m (shr_fexp prec emax m e l).1.
Proof.
  intros Hm. unfold shr_fexp, shr.
  assert (0 ≤ shr_m (shr_record_of_loc m l)) as Hrec by (by destruct l as [|[]]).
  destruct (_ - e)%Z; simpl; [done| |done].
  by apply iter_shr_1_not_negative.
Qed.

(** The rounding of a magnitude is a zero, a finite number or an
    infinity. *)
Lemma binary_round_aux_not_nan (s : bool) (m e : Z) (l : location) :
  0 ≤ m → binary_round_aux prec emax s m e l ≠ S754_nan.
Proof.
  intros Hm. unfold binary_round_aux.
  pose proof (shr_fexp_not_negative m e l Hm) as H1.
  destruct (shr_fexp prec emax m e l) as [mrs' e']. simpl in H1.
  assert (0 ≤ round_nearest_even (shr_m mrs') (loc_of_shr_record mrs')) as Hr.
  { unfold round_nearest_even.
    destruct (loc_of_shr_record mrs') as [|[]]; [done| |done|lia].
    destruct (Z.even _); lia. }
  pose proof (shr_fexp_not_negative _ e' loc_Exact Hr) as H2.
  destruct (shr_fexp prec emax _ e' loc_Exact) as [mrs'' e'']. simpl in H2.
  destruct (shr_m mrs''); [done| |lia].
  by destruct (_ <=? _)%Z.
Qed.


(** ** The growth rate *)




(** ** The demand/supply ratio *)




(** * Further properties *)

(** ** The calendar *)

Ltac split_tests :=
  repeat match goal with
  | |- context [?a <=? ?b] => destruct (Z.leb_spec a b)
  | |- context [?a <? ?b] => destruct (Z.ltb_spec a b)
  | |- context [?a =? ?b] => destruct (Z.eqb_spec a b)
  end.



Lemma month_range (z : Calendar.date) : 1 ≤ Calendar.month z ≤ 12.
Proof.
  unfold Calendar.month, Calendar.civil_from_days. cbv zeta. simpl.
  split_tests; Z.div_mod_to_equations; lia.
Qed.




(** ** The cleaning window in days *)



(** ** The time features *)

Lemma time_features_base (df : list CleanRow) :
  time_base <$> _add_time_features df = df.
Proof.
  unfold _add_time_features. rewrite <- list_fmap_compose. apply list_fmap_id.
Qed.

(** X2.  The time step adds its three columns to each row and changes
    nothing else; the day of the week is within 0..6, the month within
    1..12 and the month-end flag is 0 or 1. *)
Theorem time_features_ranges (df : list CleanRow) :
  time_base <$> _add_time_features df = df
  ∧ ∀ r, r ∈ _add_time_features df →
      0 ≤ day_of_week r ≤ 6
      ∧ 1 ≤ month r ≤ 12
      ∧ (is_month_end r = 0 ∨ is_month_end r = 1)
      ∧ day_of_week r = Calendar.dayofweek (t_date r)
      ∧ month r = Calendar.month (t_date r).
Proof.
  split; [apply time_features_base|]. unfold _add_time_features.
  - intros r (c & -> & _)%list_elem_of_fmap. simpl.
    split; [unfold Calendar.dayofweek; Z.div_mod_to_equations; lia|].
    split; [apply month_range|].
    split; [by destruct (Calendar.is_month_end _); auto|done].
Qed.

(** ** From the orders to the cleaned table *)

Lemma elem_of_extract_sales env s :
  s ∈ sales (_extract_raw_data env) ↔
  ∃ o, o ∈ sale_order env ∧ so_state o = "sale"
       ∧ s = {| date_order := so_date_order o;
                raw_product_id := so_product_id o;
                raw_product_uom_qty := so_product_uom_qty o;
                price_unit := so_price_unit o |}.
Proof.
  unfold _extract_raw_data. simpl. rewrite list_elem_of_fmap. split.
  - intros (o & -> & [Hst Ho]%list_elem_of_filter). by exists o.
  - intros (o & Ho & Hst & ->). exists o. split; [done|].
    by apply list_elem_of_filter.
Qed.

(** X19.  Every row of the cleaned table stems from a confirmed order
    (state [sale]) with that product, quantity and date, dated after the
    cut-off: draft or cancelled orders and orders without product or
    quantity never reach the later steps. *)
Theorem cleaned_rows_from_confirmed_orders env df r :
  _clean_data env (_extract_raw_data env) = Ok df →
  r ∈ df →
  ∃ o, o ∈ sale_order env
       ∧ so_state o = "sale"
       ∧ so_product_id o = Some (product_id r)
       ∧ so_product_uom_qty o = Some (product_uom_qty r)
       ∧ Calendar.dt_date (so_date_order o) = date r
       ∧ cutoff env < date r.
Proof.
  intros Hclean Hr.
  apply (elem_of_clean_data _ _ _ _ Hclean) in Hr
    as (s & pid & qty & Hs & Hlt & Hpid & Hqty & ->).
  apply elem_of_extract_sales in Hs as (o & Ho & Hst & ->).
  simpl in *. exists o. by repeat split.
Qed.

Lemma cleaned_rows_from_confirmed_orders_witness :
  ∃ o, o ∈ sale_order Samples.old_sale
       ∧ so_state o = "sale"
       ∧ Calendar.dt_date (so_date_order o) = Calendar.days_from_civil 2024 3 7.
Proof.
  assert (∃ r, _clean_data Samples.old_sale (_extract_raw_data Samples.old_sale)
               = Ok [r] ∧ date r = Calendar.days_from_civil 2024 3 7)
    as (r & Hclean & Hdate) by (eexists; split; vm_compute; reflexivity).
  destruct (cleaned_rows_from_confirmed_orders Samples.old_sale [r] r Hclean)
    as (o & Ho & Hst & _ & _ & Hd & _).
  - apply list_elem_of_singleton. reflexivity.
  - exists o. split; [exact Ho|]. split; [exact Hst|].
    rewrite Hd. exact Hdate.
Defined.

(** ** No confirmed order *)

(** X5.  When no order is confirmed, the sales frame has no columns: the
    cleaning step raises on [date_order], and the run returns the error
    message without any action. *)
Theorem no_confirmed_order_error `{Regressor} (env : Env) (lookback_days : Z) :
  (∀ o, o ∈ sale_order env → so_state o ≠ "sale") →
  prepare_training_data env lookback_days = Raise (KeyError "date_order")
  ∧ generate_and_act_on_predictions env = (Error (KeyError "date_order"), []).
Proof.
  intros Hnone.
  assert (sales (_extract_raw_data env) = []) as Hsales.
  { destruct (sales (_extract_raw_data env)) as [|s l] eqn:Hs; [done|].
    assert (s ∈ sales (_extract_raw_data env)) as Hin
      by (rewrite Hs; apply elem_of_cons; by left).
    apply elem_of_extract_sales in Hin as (o & Ho & Hst & _).
    by destruct (Hnone o Ho). }
  assert (∀ lb, prepare_training_data env lb = Raise (KeyError "date_order")) as Hprep.
  { intros lb. unfold prepare_training_data, _clean_data. rewrite Hsales.
    by rewrite bool_decide_eq_true_2. }
  split; [apply Hprep|].
  unfold generate_and_act_on_predictions. by rewrite Hprep.
Qed.

Lemma no_confirmed_order_error_witness :
  let env := Scenarios.draft_order in
  prepare_training_data env 365 = Raise (KeyError "date_order")
  ∧ @generate_and_act_on_predictions Samples.constant_regressor env
    = (Error (KeyError "date_order"), []).
Proof.
  intros env.
  apply (@no_confirmed_order_error Samples.constant_regressor env 365).
  intros o [->|Ho%elem_of_nil]%elem_of_cons; [discriminate|done].
Defined.

(** ** The outcome of the preparation and of the run *)

(** X20.  The preparation returns a table only when the cleaning step
    leaves no row of at least one confirmed order and no inventory level
    is read; the table that it returns then has no rows and no inventory
    columns. *)
Theorem prepared_table_is_empty env lookback_days df :
  prepare_training_data env lookback_days = Ok df →
  df = Unjoined []
  ∧ _clean_data env (_extract_raw_data env) = Ok []
  ∧ stock_quant env = []
  ∧ ∃ o, o ∈ sale_order env ∧ so_state o = "sale".
Proof.
  rewrite prepare_training_data_outcome.
  destruct (_clean_data env (_extract_raw_data env)) as [[|r rows]|e] eqn:Hclean;
    [|done..].
  unfold _add_inventory_features. case_bool_decide as Hquant; [|done].
  intros [= <-]. repeat split; [done|].
  destruct (sales (_extract_raw_data env)) as [|s l] eqn:Hs.
  - unfold _clean_data in Hclean. by rewrite Hs in Hclean.
  - assert (s ∈ sales (_extract_raw_data env)) as Hin
      by (rewrite Hs; apply elem_of_cons; by left).
    apply elem_of_extract_sales in Hin as (o & Ho & Hst & _). by exists o.
Qed.

Lemma prepared_table_is_empty_witness :
  let env := Samples.stale_sale in
  stock_quant env = [] ∧ ∃ o, o ∈ sale_order env ∧ so_state o = "sale".
Proof.
  intros env.
  destruct (prepared_table_is_empty env 365 (Unjoined [])) as (_ & _ & Hq & Ho).
  - vm_compute. reflexivity.
  - split; [exact Hq|exact Ho].
Defined.

(** X21.  The run never returns the text of completion and never
    triggers an action.  It returns the text of the error of the
    cleaning step when that step raises, of the [ValueError] of the
    rolling step when a row is left after cleaning, of the [MergeError]
    of the inventory step when no row is left and an inventory level is
    read, and else of the [KeyError] of the model trainer; the regressor
    is never fitted. *)
Theorem run_never_completes `{Regressor} (env : Env) :
  generate_and_act_on_predictions env
  = (Error match _clean_data env (_extract_raw_data env) with
           | Raise e => e
           | Ok [] =>
               if bool_decide (stock_quant env = [])
               then KeyError "['demand_supply_ratio'] not in index"
               else MergeError
           | Ok (_ :: _) => ValueError
           end,
     []).
Proof.
  unfold generate_and_act_on_predictions.
  rewrite prepare_training_data_outcome.
  destruct (_clean_data env (_extract_raw_data env)) as [[|r rows]|e];
    [|reflexivity..].
  unfold _add_inventory_features. by case_bool_decide.
Qed.

(** ** The prediction map *)

Lemma predict_product_inv `{Regressor} env m df predictions product predictions' :
  predict_product env m df predictions product = Ok predictions' →
  ∃ latest dsr y,
    iloc_last (select_product (id product) df) = Ok latest
    ∧ row_demand_supply_ratio latest = Ok dsr
    ∧ predict m (input_data env latest dsr) = Ok y
    ∧ predictions' = <[id product := y]> predictions.
Proof.
  unfold predict_product. intros Hok.
  destruct (iloc_last _) as [latest|]; [|done]. simpl in Hok.
  destruct (row_demand_supply_ratio latest) as [dsr|] eqn:Hdsr; [|done].
  simpl in Hok.
  destruct (predict m _) as [y|] eqn:Hy; [|done]. simpl in Hok.
  injection Hok as <-. by exists latest, dsr, y.
Qed.

Lemma predict_loop_dom `{Regressor} env m df products acc predictions :
  predict_loop env m df products acc = Ok predictions →
  ∀ pid, is_Some (predictions !! pid)
         ↔ is_Some (acc !! pid) ∨ pid ∈ id <$> products.
Proof.
  revert acc. induction products as [|p products IH]; intros acc Hok pid.
  - injection Hok as <-. rewrite fmap_nil, elem_of_nil. tauto.
  - simpl in Hok.
    destruct (predict_product env m df acc p) as [acc'|] eqn:Hp; [|done].
    simpl in Hok. apply predict_product_inv in Hp as (? & ? & y & _ & _ & _ & ->).
    rewrite (IH _ Hok pid), fmap_cons, elem_of_cons, lookup_insert_is_Some.
    destruct (decide (id p = pid)) as [->|Hne]; [tauto|].
    split; [intros [[?|[_ ?]]|?]|intros [?|[?|?]]]; tauto || congruence.
Qed.




(** X12.  Without the inventory columns no prediction map is produced for a
    catalog that is not empty: the first product raises, on the empty
    selection or on the missing column. *)
Theorem predictions_need_inventory_columns `{Regressor} env m rows :
  product_product env ≠ [] →
  ∃ e, _generate_predictions env m (Unjoined rows) = Raise e
       ∧ (e = IndexError ∨ e = KeyError "demand_supply_ratio").
Proof.
  unfold _generate_predictions.
  destruct (product_product env) as [|p products]; [done|]. intros _.
  simpl. unfold predict_product. simpl.
  destruct (last (filter (λ r, r_product_id r = id p) rows)) as [r|]; simpl.
  - exists (KeyError "demand_supply_ratio"). by split; [|right].
  - exists IndexError. by split; [|left].
Qed.

Lemma predictions_need_inventory_columns_witness :
  ∃ e, @_generate_predictions Samples.constant_regressor
         (Samples.one_product 3) () (Unjoined []) = Raise e
       ∧ (e = IndexError ∨ e = KeyError "demand_supply_ratio").
Proof.
  apply (@predictions_need_inventory_columns Samples.constant_regressor).
  discriminate.
Defined.

(** X17.  When the predictor returns a prediction map, the map has an entry
    for exactly the products of the catalog. *)
Theorem prediction_map_domain `{Regressor} env m df predictions :
  _generate_predictions env m df = Ok predictions →
  ∀ pid, is_Some (predictions !! pid) ↔ pid ∈ id <$> product_product env.
Proof.
  intros Hok pid. rewrite (predict_loop_dom _ _ _ _ _ _ Hok pid), lookup_empty.
  split; [intros [[? [=]]|?]; done|by right].
Qed.

Lemma prediction_map_domain_witness :
  let env := Samples.one_product 3 in
  let df := Samples.one_row_table in
  ∃ predictions,
    @_generate_predictions Samples.constant_regressor env () df = Ok predictions
    ∧ is_Some (predictions !! 1).
Proof.
  intros env df.
  assert (∃ predictions,
            @_generate_predictions Samples.constant_regressor env () df
            = Ok predictions) as [predictions Hp]
    by (eexists; vm_compute; reflexivity).
  exists predictions. split; [exact Hp|].
  apply (@prediction_map_domain Samples.constant_regressor env () df predictions Hp 1).
  apply list_elem_of_singleton. reflexivity.
Defined.

Lemma predict_product_Joined `{Regressor} env m rows predictions product r y :
  last (filter (λ r, j_product_id r = id product) rows) = Some r →
  predict m (input_data env (JRow r) (demand_supply_ratio r)) = Ok y →
  predict_product env m (Joined rows) predictions product
  = Ok (<[id product := y]> predictions).
Proof.
  intros Hlast Hy. unfold predict_product. simpl. rewrite Hlast. simpl.
  by rewrite Hy.
Qed.

Lemma last_filter_Some {A} (P : A → Prop) `{!∀ x, Decision (P x)} (l : list A) :
  (∃ x, x ∈ l ∧ P x) → ∃ y, last (filter P l) = Some y ∧ y ∈ l ∧ P y.
Proof.
  intros (x & Hx & HP).
  destruct (last (filter P l)) as [y|] eqn:Hlast.
  - exists y. split; [done|].
    apply last_Some_elem_of, list_elem_of_filter in Hlast as [Hy Hin]. by split.
  - apply last_None in Hlast.
    assert (x ∈ filter P l) as Hin by (by apply list_elem_of_filter).
    rewrite Hlast in Hin. by apply elem_of_nil in Hin.
Qed.

(** X22.  On a table with the inventory columns, and with a regressor
    that predicts on the features of every row of the table, the
    predictor returns a prediction map exactly when every product of the
    catalog has a row in the table. *)
Theorem predictions_iff_rows `{Regressor} env m rows :
  (∀ r, r ∈ rows →
        ∃ y, predict m (input_data env (JRow r) (demand_supply_ratio r)) = Ok y) →
  (∃ predictions, _generate_predictions env m (Joined rows) = Ok predictions)
  ↔ ∀ product, product ∈ product_product env →
               ∃ r, r ∈ rows ∧ j_product_id r = id product.
Proof.
  intros Hpredict. split.
  - intros [predictions Hok] product Hin.
    destruct (filter (λ r, j_product_id r = id product) rows) as [|r l] eqn:Hrows.
    + destruct (predict_loop_no_rows env m (Joined rows) (product_product env)
                  ∅ product Hin) as [e He].
      { simpl. by rewrite Hrows. }
      unfold _generate_predictions in Hok. congruence.
    + assert (r ∈ filter (λ r, j_product_id r = id product) rows) as Hr
        by (rewrite Hrows; apply elem_of_cons; by left).
      apply list_elem_of_filter in Hr as [Hpid Hr]. by exists r.
  - unfold _generate_predictions. generalize (∅ : gmap Z float).
    induction (product_product env) as [|p products IH]; intros acc Hall.
    + by eexists.
    + destruct (last_filter_Some (λ r, j_product_id r = id p) rows)
        as (r & Hlast & Hr & _).
      { destruct (Hall p) as (r & Hr & Hpid); [apply elem_of_cons; by left|].
        by exists r. }
      destruct (Hpredict r Hr) as [y Hy].
      simpl. rewrite (predict_product_Joined env m rows acc p r y Hlast Hy). simpl.
      apply IH. intros product Hin. apply Hall. apply elem_of_cons. by right.
Qed.

Lemma predictions_iff_rows_witness :
  ∃ predictions,
    @_generate_predictions Samples.constant_regressor (Samples.one_product 3) ()
      Samples.one_row_table = Ok predictions.
Proof.
  refine (proj2 (@predictions_iff_rows Samples.constant_regressor
                   (Samples.one_product 3) () _ _) _).
  - intros r _. by exists 10%float.
  - intros product Hin. apply list_elem_of_singleton in Hin. subst product.
    eexists. split; [apply list_elem_of_singleton; reflexivity|reflexivity].
Defined.

(** ** The reorder rules *)

(** X13.  Every reorder rule in the trace belongs to a catalog product whose
    stock is below its predicted demand, carries that demand times 1.2
    and times 1.5 and the first warehouse, and comes with a note for
    the same product. *)
Theorem reorder_rule_shape env predictions pid mn mx w :
  create_orderpoint pid mn mx w ∈ _trigger_inventory_alerts env predictions →
  ∃ product,
    product ∈ product_product env
    ∧ id product = pid
    ∧ (qty_available product <? get predictions pid)%float = true
    ∧ mn = (get predictions pid * 1.2)%float
    ∧ mx = (get predictions pid * 1.5)%float
    ∧ w = head (stock_warehouse env)
    ∧ message_post pid (get predictions pid) ∈ _trigger_inventory_alerts env predictions.
Proof.
  intros (product & Hin & Ha)%elem_of_alerts.
  apply elem_of_alert_product in Ha as [Hlt [Ha|Ha]]; [|done].
  injection Ha as -> -> -> ->. exists product.
  split; [done|]. split; [done|]. split; [done|].
  split; [done|]. split; [done|]. split; [done|].
  apply elem_of_alerts. exists product. split; [done|].
  apply elem_of_alert_product. split; [done|]. by right.
Qed.

Lemma reorder_rule_shape_witness :
  let env := Samples.one_product 3 in
  let predictions : gmap Z float := {[ 1 := 10%float ]} in
  message_post 1 (get predictions 1) ∈ _trigger_inventory_alerts env predictions.
Proof.
  intros env predictions.
  destruct (reorder_rule_shape env predictions 1 (10 * 1.2)%float (10 * 1.5)%float None)
    as (product & _ & _ & _ & _ & _ & _ & Hnote).
  - apply elem_of_cons. left. reflexivity.
  - exact Hnote.
Defined.

(** ** The opportunity category *)

Lemma elem_of_flags_inv env predictions a :
  a ∈ _flag_sales_opportunities env predictions →
  (a = create_category "Sales Opportunity" ∧ tag_sales_opportunity env = None)
  ∨ ∃ product,
      product ∈ product_product env
      ∧ a = write_category (id product)
              (match tag_sales_opportunity env with
               | Some t => ExistingTag t
               | None => CreatedTag
               end).
Proof.
  unfold _flag_sales_opportunities.
  destruct (tag_sales_opportunity env) as [t|]; simpl.
  - intros (p & Hp & Hin)%list_elem_of_bind.
    apply elem_of_flag_product in Hp as [_ ->]. right. by exists p.
  - intros [->|(p & Hp & Hin)%list_elem_of_bind]%elem_of_cons; [by left|].
    apply elem_of_flag_product in Hp as [_ ->]. right. by exists p.
Qed.

(** X15.  The category [Sales Opportunity] is created in a run exactly when
    [env.ref] finds none, also when no product is flagged, and it is the
    first write of the step; every tag that the step writes is that one
    category; the step writes nothing else. *)
Theorem opportunity_category env predictions :
  let flags := _flag_sales_opportunities env predictions in
  (∀ name, create_category name ∈ flags
           ↔ tag_sales_opportunity env = None ∧ name = "Sales Opportunity")
  ∧ (tag_sales_opportunity env = None →
     head flags = Some (create_category "Sales Opportunity"))
  ∧ (∀ pid t, write_category pid t ∈ flags →
       t = match tag_sales_opportunity env with
           | Some i => ExistingTag i
           | None => CreatedTag
           end)
  ∧ (∀ pid mn mx w, create_orderpoint pid mn mx w ∉ flags)
  ∧ (∀ pid d, message_post pid d ∉ flags).
Proof.
  intros flags. split; [|split; [|split; [|split]]].
  - intros name. split.
    + intros [[[= ->] Hnone]|(p & _ & [=])]%elem_of_flags_inv. by split.
    + intros [Hnone ->]. unfold flags, _flag_sales_opportunities.
      rewrite Hnone. apply elem_of_cons. by left.
  - intros Hnone. unfold flags, _flag_sales_opportunities. by rewrite Hnone.
  - intros pid t [[[=] _]|(p & _ & [= _ ->])]%elem_of_flags_inv. done.
  - intros pid mn mx w [[[=] _]|(p & _ & [=])]%elem_of_flags_inv.
  - intros pid d [[[=] _]|(p & _ & [=])]%elem_of_flags_inv.
Qed.

(** ** The stock moves *)

Lemma predict_product_today `{Regressor} (env env' : Env) m df predictions product :
  today env' = today env →
  predict_product env' m df predictions product
  = predict_product env m df predictions product.
Proof. intros Htoday. unfold predict_product, input_data. by rewrite Htoday. Qed.

Lemma predict_loop_today `{Regressor} (env env' : Env) m df products predictions :
  today env' = today env →
  predict_loop env' m df products predictions
  = predict_loop env m df products predictions.
Proof.
  intros Htoday. revert predictions.
  induction products as [|p products IH]; intros predictions; [done|].
  simpl. rewrite (predict_product_today env env') by done.
  destruct (predict_product env m df predictions p) as [predictions'|e]; simpl;
    [apply IH|done].
Qed.

(** X18.  The stock moves that the extraction reads have no effect: with
    other stock moves the feature table and the outcome of the run are
    the same. *)
Theorem stock_moves_not_used `{Regressor} (env : Env) (moves : list StockMove)
    (lookback_days : Z) :
  prepare_training_data (Scenarios.with_moves moves env) lookback_days
  = prepare_training_data env lookback_days
  ∧ generate_and_act_on_predictions (Scenarios.with_moves moves env)
    = generate_and_act_on_predictions env.
Proof.
  assert (∀ lb, prepare_training_data (Scenarios.with_moves moves env) lb
                = prepare_training_data env lb) as Hprep by reflexivity.
  split; [apply Hprep|].
  unfold generate_and_act_on_predictions. rewrite Hprep.
  destruct (prepare_training_data env 365) as [df|e]; [|reflexivity]. simpl.
  destruct (_train_model df) as [m|e]; [|reflexivity]. simpl.
  unfold _generate_predictions.
  by rewrite (predict_loop_today env (Scenarios.with_moves moves env)).
Qed.

(** ** The products and the quantities of the actions *)

(** X23.  Every reorder rule, note and tag of a run is for a product of
    the catalog: an entry of the prediction map for another product
    triggers nothing. *)
Theorem actions_only_for_catalog env predictions pid :
  let trace := _trigger_inventory_alerts env predictions
               ++ _flag_sales_opportunities env predictions in
  reorder_issued trace pid ∨ note_posted trace pid ∨ tag_applied trace pid →
  pid ∈ id <$> product_product env.
Proof.
  intros trace Hact.
  assert (∃ a, a ∈ trace
               ∧ ((∃ mn mx w, a = create_orderpoint pid mn mx w)
                  ∨ (∃ d, a = message_post pid d)
                  ∨ (∃ t, a = write_category pid t))) as (a & Hin & Ha).
  { destruct Hact as [(mn & mx & w & Hin)|[(d & Hin)|(t & Hin)]];
      eexists; (split; [exact Hin|]); eauto 10. }
  apply elem_of_app in Hin as [Hin|Hin].
  - apply elem_of_alerts in Hin as (p & Hp & Hin).
    apply elem_of_alert_product in Hin as [_ Heq].
    assert (id p = pid) as <-.
    { destruct Heq as [-> | ->];
        destruct Ha as [(? & ? & ? & [=])|[(? & [=])|(? & [=])]]; done. }
    by apply list_elem_of_fmap_2.
  - apply elem_of_flags_inv in Hin as [[-> _]|(p & Hp & ->)].
    + destruct Ha as [(? & ? & ? & [=])|[(? & [=])|(? & [=])]].
    + assert (id p = pid) as <-
        by (destruct Ha as [(? & ? & ? & [=])|[(? & [=])|(? & [=])]]; done).
      by apply list_elem_of_fmap_2.
Qed.

Lemma actions_only_for_catalog_witness :
  1 ∈ id <$> product_product (Samples.one_product 3).
Proof.
  apply (actions_only_for_catalog (Samples.one_product 3) {[ 1 := 10%float ]} 1).
  left. eexists _, _, _. apply elem_of_cons. left. reflexivity.
Defined.

Lemma binary_round_aux_leb (m e : Z) (l : location) :
  0 ≤ m →
  SFleb (S754_zero false) (binary_round_aux prec emax false m e l) = true.
Proof.
  intros Hm. pose proof (binary_round_aux_not_nan false m e l Hm) as Hnan.
  pose proof (binary_round_aux_not_negative m e l) as Hneg.
  destruct (binary_round_aux prec emax false m e l) as [s|s| |s m' e'];
    [by destruct s..|done|by destruct s].
Qed.

(** A positive multiple of a number that is above a number that is not
    negative is not negative, as the product is rounded. *)
Lemma above_not_negative_scaled (s d c : float) (mc : positive) (ec : Z) :
  Prim2SF c = S754_finite false mc ec →
  (0 <=? s)%float = true → (s <? d)%float = true → (0 <=? d * c)%float = true.
Proof.
  intros Hc. rewrite !leb_spec, ltb_spec, mul_spec, Hc.
  change (Prim2SF 0) with (S754_zero false).
  destruct (Prim2SF s) as [bs|bs| |bs ms es]; simpl; try discriminate;
    destruct bs; try discriminate; intros _;
    destruct (Prim2SF d) as [bd|bd| |bd md ed]; simpl; try discriminate;
    destruct bd; try discriminate; intros _; try reflexivity;
    by apply binary_round_aux_leb.
Qed.

(** X24.  The reorder rule of a catalog product whose stock is not
    negative has a minimum and a maximum quantity that are not
    negative. *)
Theorem reorder_quantities_not_negative env predictions product mn mx w :
  product ∈ product_product env →
  NoDup (id <$> product_product env) →
  (0 <=? qty_available product)%float = true →
  create_orderpoint (id product) mn mx w ∈ _trigger_inventory_alerts env predictions →
  (0 <=? mn)%float = true ∧ (0 <=? mx)%float = true.
Proof.
  intros Hin Hnd Hstock Hrule.
  destruct (actions_of_product env predictions product Hin Hnd) as (Hr & _ & Hq & _).
  assert ((qty_available product <? get predictions (id product))%float = true) as Hlt
    by (apply Hr; by exists mn, mx, w).
  destruct (Hq mn mx w Hrule) as [-> ->].
  split.
  - by apply (above_not_negative_scaled (qty_available product) _ 1.2
                5404319552844595 (-52)).
  - by apply (above_not_negative_scaled (qty_available product) _ 1.5
                6755399441055744 (-52)).
Qed.

Lemma reorder_quantities_not_negative_witness :
  (0 <=? 10 * 1.2)%float = true ∧ (0 <=? 10 * 1.5)%float = true.
Proof.
  apply (reorder_quantities_not_negative (Samples.one_product 3) {[ 1 := 10%float ]}
           {| id := 1; qty_available := 3 |} _ _ None).
  - apply list_elem_of_singleton. reflexivity.
  - apply NoDup_singleton.
  - reflexivity.
  - apply elem_of_cons. left. reflexivity.
Defined.

(** ** The orders that are not confirmed *)

(** X25.  The orders that are not confirmed have no effect: without them
    the outcome of the preparation and of the run is the same. *)
Theorem unconfirmed_orders_not_used `{Regressor} (env : Env) (lookback_days : Z) :
  let confirmed := filter (λ o, so_state o = "sale") (sale_order env) in
  prepare_training_data (Samples.with_sales confirmed env) lookback_days
  = prepare_training_data env lookback_days
  ∧ generate_and_act_on_predictions (Samples.with_sales confirmed env)
    = generate_and_act_on_predictions env.
Proof.
  intros confirmed.
  assert (_extract_raw_data (Samples.with_sales confirmed env) = _extract_raw_data env)
    as Hraw.
  { unfold _extract_raw_data, confirmed. simpl. f_equal. f_equal.
    rewrite list_filter_filter. apply list_filter_iff. tauto. }
  assert (∀ lb, prepare_training_data (Samples.with_sales confirmed env) lb
                = prepare_training_data env lb) as Hprep.
  { intros lb. unfold prepare_training_data. by rewrite Hraw. }
  split; [apply Hprep|].
  unfold generate_and_act_on_predictions. rewrite Hprep.
  destruct (prepare_training_data env 365) as [df|e]; [|reflexivity]. simpl.
  destruct (_train_model df) as [m|e]; [|reflexivity]. simpl.
  unfold _generate_predictions.
  by rewrite (predict_loop_today env (Samples.with_sales confirmed env)).
Qed.
